(** * Type checking of simple Java expressions

    A shallow embedding of [java_type_checker/expressions.py]: the
    expression AST, [static_type] and [check_types], together with the part
    of the type hierarchy ([types.py]) these two operations query. *)

From Stdlib Require Import Ascii.
From stdpp Require Import base decidable option list strings gmap pretty.

Open Scope string_scope.

(** ** The type hierarchy queried by the checker *)

Module Types.

(** Modelled from the spec: the [Type] class of [types.py], which is not part
    of the source tree.  A type is a nominal entity identified by its name.
    [Type.int], [Type.boolean], [Type.double] and [Type.null] are the
    distinguished objects the checker compares against (Python compares
    types by identity); every other type is a class or interface. *)
Inductive Type_ : Set :=
  | Tint
  | Tboolean
  | Tdouble
  | Tnull
  | ClassOrInterface (name : string).

#[global] Instance Type_eq_dec : EqDecision Type_.
Proof. solve_decision. Defined.

(** Modelled from the spec: the [name] attribute of a type. *)
Definition name (t : Type_) : string :=
  match t with
  | Tint => "int"
  | Tboolean => "boolean"
  | Tdouble => "double"
  | Tnull => "null"
  | ClassOrInterface n => n
  end.

(** Modelled from the spec: a method signature has a name, an ordered
    sequence of parameter types and a return type. *)
Record Method : Set := mkMethod {
  method_name : string;
  argument_types : list Type_;
  return_type : Type_
}.

(** Modelled from the spec: a constructor signature is an ordered sequence of
    parameter types. *)
Record Constructor : Set := mkConstructor {
  constructor_argument_types : list Type_
}.

(** Modelled from the spec: the type hierarchy, built once by an external
    collaborator and read-only during checking.  Every type has a set of
    direct supertypes, a constructor signature (consulted only for
    non-primitive, non-null types, where it is assumed present) and a mapping
    from method name to method signature. *)
Record Hierarchy : Type := mkHierarchy {
  direct_supertypes : Type_ -> list Type_;
  constructor : Type_ -> Constructor;
  methods : Type_ -> gmap string Method
}.

(** Modelled from the spec: method lookup by name on a type returns the
    signature if the type itself declares a method of that name and an
    absence indicator ([None]) otherwise; supertypes are not searched. *)
Definition method_named (h : Hierarchy) (t : Type_) (n : string) : option Method :=
  methods h t !! n.

End Types.
Export Types.

(** ** Outcomes of Python calls *)

(** The exceptions the modelled code can raise: [JavaTypeError] carries its
    message only (the class body is [pass]); [AttributeError] is what Python
    raises for an attribute access on [None]; [IndexError] for a list
    subscript out of range. *)
Inductive exn : Set :=
  | JavaTypeError (msg : string)
  | AttributeError
  | IndexError.

Inductive outcome (A : Type) : Type :=
  | Returns (a : A)
  | Raises (e : exn).
Arguments Returns {A} a.
Arguments Raises {A} e.

#[global] Instance outcome_ret : MRet outcome := fun A a => Returns a.
#[global] Instance outcome_bind : MBind outcome := fun A B f m =>
  match m with
  | Returns a => f a
  | Raises e => Raises e
  end.

(** [l[i]] on a Python list. *)
Definition getitem {A} (l : list A) (i : nat) : outcome A :=
  match l !! i with
  | Some a => Returns a
  | None => Raises IndexError
  end.

(** [for i in range(lo, lo + n): body(i)], stopping at the first exception. *)
Fixpoint for_range (lo n : nat) (body : nat -> outcome ()) : outcome () :=
  match n with
  | O => Returns ()
  | S n' => _ ← body lo; for_range (S lo) n' body
  end.

(** ** Expressions *)

(** The AST: one constructor per concrete subclass of [Expression] (the
    base class itself only raises [NotImplementedError]).  [NullLiteral] is
    the [Literal] whose value is "null" and whose type is [Type.null]. *)
#[warnings="-register-all"] Inductive Expression : Set :=
  | Variable_ (name : string) (declared_type : Type_)
  | Literal (value : string) (type : Type_)
  | NullLiteral
  | MethodCall (receiver : Expression) (method_name : string) (args : list Expression)
  | ConstructorCall (instantiated_type : Type_) (args : list Expression).

(** [names]: helper for formatting error messages. *)
Definition names (named_things : list Type_) : string :=
  "(" +:+ String.concat ", " (map name named_things) +:+ ")".

Definition primitives : list Type_ := [Tint; Tboolean; Tdouble].

Section Checker.

Context (h : Hierarchy).

(** [static_type]: the compile-time type of an expression.  For a method
    call on a type without the named method, [method] is [None] and
    [method.return_type] raises [AttributeError]. *)
Fixpoint static_type (e : Expression) : outcome Type_ :=
  match e with
  | Variable_ _ declared_type => Returns declared_type
  | Literal _ type => Returns type
  | NullLiteral => Returns Tnull
  | MethodCall receiver method_name _ =>
      objType ← static_type receiver;
      match method_named h objType method_name with
      | Some method => Returns (return_type method)
      | None => Raises AttributeError
      end
  | ConstructorCall instantiated_type _ => Returns instantiated_type
  end.

(** The messages of the five [raise JavaTypeError] statements. *)
Definition no_methods_msg (objType : Type_) : string :=
  "Type " +:+ name objType +:+ " does not have methods".

Definition no_method_named_msg (objType : Type_) (method_name : string) : string :=
  name objType +:+ " has no method named " +:+ method_name.

Definition not_instantiable_msg (t : Type_) : string :=
  "Type " +:+ name t +:+ " is not instantiable".

Definition wrong_number_msg (callee : string) (expected got : nat) : string :=
  "Wrong number of arguments for " +:+ callee +:+ ": expected " +:+ pretty expected
    +:+ ", got " +:+ pretty got.

Definition expects_arguments_msg (callee : string) (expected passed : list Type_) : string :=
  callee +:+ " expects arguments of type " +:+ names expected +:+ ", but got " +:+ names passed.

Definition method_callee (objType : Type_) (method : Method) : string :=
  name objType +:+ "." +:+ Types.method_name method +:+ "()".

Definition constructor_callee (t : Type_) : string :=
  name t +:+ " constructor".

(** The [if]/[elif] chain of the argument loop of [MethodCall.check_types]. *)
Definition method_arg_accepted (passed expected : Type_) : bool :=
  if bool_decide (passed = expected) then true
  else if bool_decide (expected ∈ direct_supertypes h passed) || bool_decide (passed = Tnull) then true
  else false.

(** The [if]/[elif] chain of the argument loop of [ConstructorCall.check_types]. *)
Definition constructor_arg_accepted (passed expected : Type_) : bool :=
  if bool_decide (passed = expected) then true
  else if bool_decide (expected ∈ direct_supertypes h passed) then true
  else if bool_decide (passed = Tnull) && negb (bool_decide (expected ∈ primitives)) then true
  else false.

(** The body of the argument loop, shared in shape by both call forms:
    validate argument [i], then compare its static type with the declared
    parameter type. *)
Definition check_arg (accepted : Type_ -> Type_ -> bool) (msg : string)
    (checks : list (outcome ())) (passedArgTypes expectedArgTypes : list Type_)
    (i : nat) : outcome () :=
  check ← getitem checks i;
  _ ← check;
  passed ← getitem passedArgTypes i;
  expected ← getitem expectedArgTypes i;
  if accepted passed expected then Returns ()
  else Raises (JavaTypeError msg).

(** [check_types]: returns normally on a valid expression and raises
    otherwise.  In both call forms the static types of all arguments are
    collected first; the loop then validates argument [i] and compares its
    type with the declared one. *)
Fixpoint check_types (e : Expression) : outcome () :=
  match e with
  | Variable_ _ _ => Returns ()
  | Literal _ _ => Returns ()
  | NullLiteral => Returns ()
  | MethodCall receiver method_name args =>
      objType ← static_type receiver;
      if bool_decide (objType ∈ primitives) then
        Raises (JavaTypeError (no_methods_msg objType))
      else
        match method_named h objType method_name with
        | None => Raises (JavaTypeError (no_method_named_msg objType method_name))
        | Some method =>
            if bool_decide (length args = length (argument_types method)) then
              passedArgTypes ← mapM static_type args;
              for_range 0 (length args)
                (check_arg method_arg_accepted
                   (expects_arguments_msg (method_callee objType method)
                      (argument_types method) passedArgTypes)
                   (map check_types args) passedArgTypes (argument_types method))
            else
              Raises (JavaTypeError (wrong_number_msg (method_callee objType method)
                                       (length (argument_types method)) (length args)))
        end
  | ConstructorCall instantiated_type args =>
      if bool_decide (instantiated_type ∈ primitives) then
        Raises (JavaTypeError (not_instantiable_msg instantiated_type))
      else if bool_decide (instantiated_type = Tnull) then
        Raises (JavaTypeError "Type null is not instantiable")
      else
        let expectedArgTypes := constructor_argument_types (constructor h instantiated_type) in
        if bool_decide (length args = length expectedArgTypes) then
          passedArgTypes ← mapM static_type args;
          for_range 0 (length args)
            (check_arg constructor_arg_accepted
               (expects_arguments_msg (constructor_callee instantiated_type)
                  expectedArgTypes passedArgTypes)
               (map check_types args) passedArgTypes expectedArgTypes)
        else
          Raises (JavaTypeError (wrong_number_msg (constructor_callee instantiated_type)
                                   (length expectedArgTypes) (length args)))
  end.

End Checker.

(** The argument loop as a walk down the three lists it indexes; the loop
    is shown equal to it when the lists have the same length (which the
    arity check ensures). *)
Fixpoint check_args (accepted : Type_ -> Type_ -> bool) (msg : string)
    (checks : list (outcome ())) (passedArgTypes expectedArgTypes : list Type_)
    : outcome () :=
  match checks, passedArgTypes, expectedArgTypes with
  | check :: checks', passed :: passedArgTypes', expected :: expectedArgTypes' =>
      _ ← check;
      if accepted passed expected
      then check_args accepted msg checks' passedArgTypes' expectedArgTypes'
      else Raises (JavaTypeError msg)
  | _, _, _ => Returns ()
  end.

(** ** The five causes of a type error *)

(** Modelled from the spec: the taxonomy of causes (its section 7).  The code
    itself has one exception class; each cause is one [raise] statement of
    [check_types] and [raised] gives the exception that statement builds. *)
Inductive TypeError : Set :=
  | NotInstantiableReceiver (objType : Type_)
  | UnknownMethod (objType : Type_) (method_name : string)
  | NotInstantiableType (instantiated_type : Type_)
  | ArityMismatch (callee : string) (expected got : nat)
  | ArgumentTypeMismatch (callee : string) (expected passed : list Type_).

Definition raised (c : TypeError) : exn :=
  match c with
  | NotInstantiableReceiver objType => JavaTypeError (no_methods_msg objType)
  | UnknownMethod objType method_name => JavaTypeError (no_method_named_msg objType method_name)
  | NotInstantiableType t => JavaTypeError (not_instantiable_msg t)
  | ArityMismatch callee expected got => JavaTypeError (wrong_number_msg callee expected got)
  | ArgumentTypeMismatch callee expected passed =>
      JavaTypeError (expects_arguments_msg callee expected passed)
  end.

Inductive ErrorKind : Set :=
  | NotInstantiableReceiverKind
  | UnknownMethodKind
  | NotInstantiableTypeKind
  | ArityMismatchKind
  | ArgumentTypeMismatchKind.

Definition kind (c : TypeError) : ErrorKind :=
  match c with
  | NotInstantiableReceiver _ => NotInstantiableReceiverKind
  | UnknownMethod _ _ => UnknownMethodKind
  | NotInstantiableType _ => NotInstantiableTypeKind
  | ArityMismatch _ _ _ => ArityMismatchKind
  | ArgumentTypeMismatch _ _ _ => ArgumentTypeMismatchKind
  end.

(** An error kind is inspectable when it can be read off the exception. *)
Definition kind_inspectable : Prop :=
  exists kind_of : exn -> ErrorKind, forall c, kind_of (raised c) = kind c.

(** ** Well-typed calls *)

Definition valid (h : Hierarchy) (e : Expression) : Prop :=
  check_types h e = Returns ().

(** The three conditions under which a method argument is assignable. *)
Definition method_assignable (h : Hierarchy) (passed expected : Type_) : Prop :=
  passed = expected \/ expected ∈ direct_supertypes h passed \/ passed = Tnull.

(** For a constructor argument, null is permitted for a non-primitive
    parameter only. *)
Definition constructor_assignable (h : Hierarchy) (passed expected : Type_) : Prop :=
  passed = expected \/ expected ∈ direct_supertypes h passed
  \/ (passed = Tnull /\ expected ∉ primitives).

Definition has_type (h : Hierarchy) (assignable : Type_ -> Type_ -> Prop)
    (e : Expression) (expected : Type_) : Prop :=
  exists passed, static_type h e = Returns passed /\ assignable passed expected.

Definition well_typed_call (h : Hierarchy) (e : Expression) : Prop :=
  match e with
  | MethodCall receiver method_name args =>
      exists objType method,
        static_type h receiver = Returns objType /\
        (objType ∉ primitives) /\
        method_named h objType method_name = Some method /\
        length args = length (argument_types method) /\
        Forall2 (has_type h (method_assignable h)) args (argument_types method) /\
        valid h receiver /\ Forall (valid h) args
  | ConstructorCall instantiated_type args =>
      (instantiated_type ∉ primitives) /\
      instantiated_type <> Tnull /\
      length args = length (constructor_argument_types (constructor h instantiated_type)) /\
      Forall2 (has_type h (constructor_assignable h)) args
        (constructor_argument_types (constructor h instantiated_type)) /\
      Forall (valid h) args
  | _ => False
  end.

(** ** Expressions up to their leaves' types *)

(** [forget e] keeps the types of the leaves of [e] and drops the variable
    names and literal values; the null literal becomes a literal of the
    null type. *)
Fixpoint forget (e : Expression) : Expression :=
  match e with
  | Variable_ _ declared_type => Literal "" declared_type
  | Literal _ type => Literal "" type
  | NullLiteral => Literal "" Tnull
  | MethodCall receiver method_name args =>
      MethodCall (forget receiver) method_name (map forget args)
  | ConstructorCall instantiated_type args =>
      ConstructorCall instantiated_type (map forget args)
  end.

(** ** Hierarchies used in the examples *)

Module Example.

Definition Object := ClassOrInterface "Object".
Definition String := ClassOrInterface "String".
Definition Number := ClassOrInterface "Number".
Definition Integer := ClassOrInterface "Integer".
Definition Point := ClassOrInterface "Point".
Definition List := ClassOrInterface "List".
Definition AbstractList := ClassOrInterface "AbstractList".
Definition ArrayList := ClassOrInterface "ArrayList".

Definition hierarchy : Hierarchy := {|
  direct_supertypes t :=
    match t with
    | ClassOrInterface "String" => [Object]
    | ClassOrInterface "Number" => [Object]
    | ClassOrInterface "Integer" => [Number]
    | ClassOrInterface "Point" => [Object]
    | ClassOrInterface "AbstractList" => [List]
    | ClassOrInterface "ArrayList" => [AbstractList; List]
    | _ => []
    end;
  constructor t :=
    match t with
    | ClassOrInterface "String" => mkConstructor [Tint]
    | ClassOrInterface "Number" => mkConstructor [Object]
    | ClassOrInterface "Integer" => mkConstructor [Number]
    | ClassOrInterface "Point" => mkConstructor [Tdouble; Tdouble]
    | ClassOrInterface "ArrayList" => mkConstructor [List]
    | _ => mkConstructor []
    end;
  methods t :=
    match t with
    | ClassOrInterface "Object" =>
        {[ "hashCode" := mkMethod "hashCode" [] Tint;
           "equals" := mkMethod "equals" [Object] Tboolean ]}
    | ClassOrInterface "String" =>
        {[ "length" := mkMethod "length" [] Tint ]}
    | ClassOrInterface "Point" =>
        {[ "getX" := mkMethod "getX" [] Tdouble;
           "setLabel" := mkMethod "setLabel" [String; Tint] Point;
           "scale" := mkMethod "scale" [Number] Point ]}
    | ClassOrInterface "List" =>
        {[ "addAll" := mkMethod "addAll" [List] Tboolean ]}
    | _ => ∅
    end
|}.

(** Type and method names are arbitrary strings. *)
Definition odd_names : Hierarchy := {|
  direct_supertypes _ := [];
  constructor _ := mkConstructor [];
  methods t :=
    match t with
    | ClassOrInterface "A has no method named B" => {[ "m" := mkMethod "m" [] Tint ]}
    | _ => ∅
    end
|}.

(** [p.setLabel(new int(), 1)]: the first argument is not a valid
    expression, and its static type int is not assignable to [String]. *)
Definition set_label_receiver : Expression := Variable_ "p" Point.
Definition set_label_args : list Expression := [ConstructorCall Tint []; Literal "1" Tint].
Definition set_label : Method := mkMethod "setLabel" [String; Tint] Point.

(** [ArrayList] has [List] both as a direct supertype and as a supertype of
    its direct supertype [AbstractList]. *)
Definition add_all_call : Expression :=
  MethodCall (Variable_ "l" List) "addAll" [Variable_ "a" ArrayList].
Definition new_array_list : Expression :=
  ConstructorCall ArrayList [Variable_ "a" ArrayList].

(** Two calls over [odd_names]: one names an undeclared method, the other
    passes one argument to a method without parameters. *)
Definition odd_receiver : Type_ := ClassOrInterface "Wrong number of arguments for A".
Definition odd_method_name : string := "B.m(): expected 0, got 1".
Definition odd_declaring : Type_ := ClassOrInterface "A has no method named B".
Definition unknown_method_call : Expression :=
  MethodCall (Variable_ "x" odd_receiver) odd_method_name [].
Definition wrong_arity_call : Expression :=
  MethodCall (Variable_ "y" odd_declaring) "m" [NullLiteral].

End Example.

(** Refutes the membership of a concrete type in a concrete list. *)
Ltac not_in_list :=
  let H := fresh in intros H; apply (bool_decide_pack _) in H; vm_compute in H; exact H.

(** The last character of a string, used to tell messages apart. *)
Fixpoint last_char (s : string) : option ascii :=
  match s with
  | EmptyString => None
  | String c s' =>
      match last_char s' with
      | Some c' => Some c'
      | None => Some c
      end
  end.

(** ** Reasoning about the argument loop *)

Lemma Expression_nested_ind (P : Expression -> Prop) :
  (forall n t, P (Variable_ n t)) ->
  (forall v t, P (Literal v t)) ->
  P NullLiteral ->
  (forall receiver n args, P receiver -> Forall P args -> P (MethodCall receiver n args)) ->
  (forall t args, Forall P args -> P (ConstructorCall t args)) ->
  forall e, P e.
Proof.
  intros HV HL HN HM HC.
  fix IH 1. intros [n t | v t | | receiver n args | t args].
  - apply HV.
  - apply HL.
  - apply HN.
  - apply HM; [apply IH |].
    induction args as [| a args IHargs]; constructor; [apply IH | apply IHargs].
  - apply HC.
    induction args as [| a args IHargs]; constructor; [apply IH | apply IHargs].
Qed.

Lemma for_range_shift lo n body :
  for_range (S lo) n body = for_range lo n (fun i => body (S i)).
Proof.
  revert lo. induction n as [| n IHn]; intros lo; simpl; [reflexivity |].
  destruct (body (S lo)); simpl; [apply IHn | reflexivity].
Qed.

Lemma mapM_outcome_length {A B} (f : A -> outcome B) l k :
  mapM f l = Returns k -> length k = length l.
Proof.
  revert k. induction l as [| x l IHl]; intros k; simpl.
  - intros [= <-]. reflexivity.
  - destruct (f x) as [y |]; simpl; [| discriminate].
    destruct (mapM f l) as [k' |]; simpl; [| discriminate].
    intros [= <-]. simpl. f_equal. apply IHl. reflexivity.
Qed.

(** The index loop and the walk agree on lists of one length. *)
Lemma for_range_check_arg accepted msg checks passedArgTypes expectedArgTypes :
  length passedArgTypes = length checks ->
  length expectedArgTypes = length checks ->
  for_range 0 (length checks)
    (check_arg accepted msg checks passedArgTypes expectedArgTypes)
  = check_args accepted msg checks passedArgTypes expectedArgTypes.
Proof.
  revert passedArgTypes expectedArgTypes.
  induction checks as [| check checks IH];
    intros [| passed passedArgTypes] [| expected expectedArgTypes];
    simpl; try discriminate; [reflexivity |].
  intros [= Hp] [= He].
  rewrite for_range_shift, <- (IH _ _ Hp He).
  destruct check as [[] | x]; [| reflexivity].
  unfold check_arg at 1. cbn.
  destruct (accepted passed expected); reflexivity.
Qed.

Section ArgumentWalk.

Context (accepted : Type_ -> Type_ -> bool) (msg : string).

Lemma check_args_returns checks passedArgTypes expectedArgTypes :
  Forall (fun check => check = Returns ()) checks ->
  Forall2 (fun passed expected => accepted passed expected = true)
    passedArgTypes expectedArgTypes ->
  check_args accepted msg checks passedArgTypes expectedArgTypes = Returns ().
Proof.
  intros Hchecks Htypes. revert checks Hchecks.
  induction Htypes as [| passed expected passedArgTypes expectedArgTypes Hacc _ IH];
    intros checks Hchecks.
  - destruct checks; reflexivity.
  - destruct Hchecks as [| check checks -> Hchecks]; [reflexivity |].
    simpl. rewrite Hacc. apply IH, Hchecks.
Qed.

Lemma check_args_returns_inv checks passedArgTypes expectedArgTypes :
  length passedArgTypes = length checks ->
  length expectedArgTypes = length checks ->
  check_args accepted msg checks passedArgTypes expectedArgTypes = Returns () ->
  Forall (fun check => check = Returns ()) checks /\
  Forall2 (fun passed expected => accepted passed expected = true)
    passedArgTypes expectedArgTypes.
Proof.
  revert passedArgTypes expectedArgTypes.
  induction checks as [| check checks IH];
    intros [| passed passedArgTypes] [| expected expectedArgTypes];
    simpl; try discriminate.
  - intros _ _ _. split; constructor.
  - intros [= Hp] [= He].
    destruct check as [[] | x]; simpl; [| discriminate].
    destruct (accepted passed expected) eqn:Hacc; [| discriminate].
    intros Hrest. destruct (IH _ _ Hp He Hrest) as [Hchecks Htypes].
    split; constructor; auto.
Qed.

(** A rejected position whose argument, and every argument before it, is
    valid makes the walk raise the mismatch error. *)
Lemma check_args_rejects checks passedArgTypes expectedArgTypes i passed expected :
  length passedArgTypes = length checks ->
  passedArgTypes !! i = Some passed ->
  expectedArgTypes !! i = Some expected ->
  accepted passed expected = false ->
  Forall (fun check => check = Returns ()) (take (S i) checks) ->
  check_args accepted msg checks passedArgTypes expectedArgTypes
  = Raises (JavaTypeError msg).
Proof.
  revert checks passedArgTypes expectedArgTypes.
  induction i as [| i IH];
    intros [| check checks] [| passed' passedArgTypes] [| expected' expectedArgTypes];
    simpl; try discriminate.
  - intros _ [= ->] [= ->] Hacc Hchecks.
    apply Forall_cons in Hchecks as [-> _]. simpl. rewrite Hacc. reflexivity.
  - intros [= Hlen] Hp He Hacc Hchecks.
    apply Forall_cons in Hchecks as [-> Hchecks]. simpl.
    destruct (accepted passed' expected'); [| reflexivity].
    apply IH; assumption.
Qed.

(** Whatever the walk raises is the mismatch error or was raised by the
    validation of an argument. *)
Lemma check_args_raises checks passedArgTypes expectedArgTypes x :
  check_args accepted msg checks passedArgTypes expectedArgTypes = Raises x ->
  x = JavaTypeError msg \/ Raises x ∈ checks.
Proof.
  revert passedArgTypes expectedArgTypes.
  induction checks as [| check checks IH];
    intros [| passed passedArgTypes] [| expected expectedArgTypes];
    simpl; try discriminate.
  destruct check as [[] | y]; simpl.
  - destruct (accepted passed expected).
    + intros Hrest. destruct (IH _ _ Hrest) as [-> | Hin]; [left | right]; auto.
      apply list_elem_of_further, Hin.
    + intros [= <-]. left. reflexivity.
  - intros [= <-]. right. apply list_elem_of_here.
Qed.

(** The first invalid argument, when the positions before it are valid and
    accepted, makes the walk raise that argument's own error. *)
Lemma check_args_propagates checks passedArgTypes expectedArgTypes j x :
  length passedArgTypes = length checks ->
  length expectedArgTypes = length checks ->
  checks !! j = Some (Raises x) ->
  Forall (fun check => check = Returns ()) (take j checks) ->
  Forall2 (fun passed expected => accepted passed expected = true)
    (take j passedArgTypes) (take j expectedArgTypes) ->
  check_args accepted msg checks passedArgTypes expectedArgTypes = Raises x.
Proof.
  revert checks passedArgTypes expectedArgTypes.
  induction j as [| j IH];
    intros [| check checks] [| passed passedArgTypes] [| expected expectedArgTypes];
    simpl; try discriminate.
  - intros _ _ [= ->] _ _. reflexivity.
  - intros [= Hp] [= He] Hj Hchecks Htypes.
    apply Forall_cons in Hchecks as [-> Hchecks].
    apply Forall2_cons in Htypes as [-> Htypes]. simpl.
    apply IH; assumption.
Qed.

End ArgumentWalk.

(** ** [check_types] on a call that passes the structural checks *)

Section Calls.

Context (h : Hierarchy).

Lemma not_primitive (t : Type_) :
  t ∉ primitives -> bool_decide (t ∈ primitives) = false.
Proof. intros Ht. apply bool_decide_eq_false. exact Ht. Qed.

Lemma check_types_MethodCall receiver method_name args objType method passedArgTypes :
  static_type h receiver = Returns objType ->
  objType ∉ primitives ->
  method_named h objType method_name = Some method ->
  length args = length (argument_types method) ->
  mapM (static_type h) args = Returns passedArgTypes ->
  check_types h (MethodCall receiver method_name args)
  = check_args (method_arg_accepted h)
      (expects_arguments_msg (method_callee objType method)
         (argument_types method) passedArgTypes)
      (map (check_types h) args) passedArgTypes (argument_types method).
Proof.
  intros Hrecv Hprim Hmeth Hlen Hpassed. simpl.
  rewrite Hrecv. simpl. rewrite (not_primitive _ Hprim), Hmeth.
  rewrite bool_decide_eq_true_2 by exact Hlen.
  rewrite Hpassed. simpl.
  rewrite <- (length_map (check_types h) args).
  apply for_range_check_arg.
  - rewrite length_map. apply (mapM_outcome_length _ _ _ Hpassed).
  - rewrite length_map. symmetry. exact Hlen.
Qed.

Lemma check_types_ConstructorCall instantiated_type args passedArgTypes :
  instantiated_type ∉ primitives ->
  instantiated_type <> Tnull ->
  length args = length (constructor_argument_types (constructor h instantiated_type)) ->
  mapM (static_type h) args = Returns passedArgTypes ->
  check_types h (ConstructorCall instantiated_type args)
  = check_args (constructor_arg_accepted h)
      (expects_arguments_msg (constructor_callee instantiated_type)
         (constructor_argument_types (constructor h instantiated_type)) passedArgTypes)
      (map (check_types h) args) passedArgTypes
      (constructor_argument_types (constructor h instantiated_type)).
Proof.
  intros Hprim Hnull Hlen Hpassed. simpl.
  rewrite (not_primitive _ Hprim).
  rewrite bool_decide_eq_false_2 by exact Hnull.
  rewrite bool_decide_eq_true_2 by exact Hlen.
  rewrite Hpassed. simpl.
  rewrite <- (length_map (check_types h) args).
  apply for_range_check_arg.
  - rewrite length_map. apply (mapM_outcome_length _ _ _ Hpassed).
  - rewrite length_map. symmetry. exact Hlen.
Qed.

Lemma method_arg_accepted_spec passed expected :
  method_arg_accepted h passed expected = true <-> method_assignable h passed expected.
Proof.
  unfold method_arg_accepted, method_assignable.
  repeat case_bool_decide; simpl; intuition congruence.
Qed.

Lemma constructor_arg_accepted_spec passed expected :
  constructor_arg_accepted h passed expected = true
  <-> constructor_assignable h passed expected.
Proof.
  unfold constructor_arg_accepted, constructor_assignable.
  repeat case_bool_decide; simpl; intuition congruence.
Qed.

(** A valid expression has a static type. *)
Lemma valid_static_type e :
  valid h e -> exists t, static_type h e = Returns t.
Proof.
  unfold valid. destruct e as [n t | v t | | receiver n args | t args]; simpl; eauto.
  destruct (static_type h receiver) as [objType |]; simpl; [| discriminate].
  case_bool_decide; [discriminate |].
  destruct (method_named h objType n) as [method |]; [eauto | discriminate].
Qed.

Lemma Forall_valid_checks args :
  Forall (valid h) args <-> Forall (fun check => check = Returns ()) (map (check_types h) args).
Proof. rewrite Forall_map. reflexivity. Qed.

End Calls.

(** ** Calls rejected before their arguments are looked at *)

(** C3: a method call whose receiver has a primitive static type [R] (int,
    boolean or double) fails with NotInstantiableReceiver, whose message is
    "Type R does not have methods", for every method name, every table of
    declared methods and every argument list: the method is not looked up,
    the arguments are neither counted nor validated. *)
Theorem primitive_receiver_has_no_methods h receiver method_name args R :
  static_type h receiver = Returns R ->
  R = Tint \/ R = Tboolean \/ R = Tdouble ->
  check_types h (MethodCall receiver method_name args)
  = Raises (raised (NotInstantiableReceiver R))
  /\ raised (NotInstantiableReceiver R)
     = JavaTypeError ("Type " +:+ name R +:+ " does not have methods").
Proof.
  intros Hrecv HR. split; [| reflexivity].
  simpl. rewrite Hrecv. simpl.
  destruct HR as [-> | [-> | ->]]; reflexivity.
Qed.

Lemma primitive_receiver_has_no_methods_witness :
  check_types Example.hierarchy (MethodCall (Literal "1" Tint) "toString" [])
  = Raises (JavaTypeError "Type int does not have methods").
Proof.
  apply (primitive_receiver_has_no_methods Example.hierarchy
           (Literal "1" Tint) "toString" [] Tint).
  - reflexivity.
  - left. reflexivity.
Defined.

(** C4: a constructor call whose instantiated type is a primitive (int,
    boolean or double) or the null type fails with NotInstantiableType, for
    every argument list: the arguments are neither counted nor validated. *)
Theorem primitive_and_null_not_instantiable h instantiated_type args :
  instantiated_type ∈ primitives \/ instantiated_type = Tnull ->
  check_types h (ConstructorCall instantiated_type args)
  = Raises (raised (NotInstantiableType instantiated_type)).
Proof.
  intros [Hprim | ->]; simpl.
  - rewrite bool_decide_eq_true_2 by exact Hprim. reflexivity.
  - reflexivity.
Qed.

Lemma primitive_and_null_not_instantiable_witness :
  check_types Example.hierarchy (ConstructorCall Tnull [NullLiteral; Literal "1" Tint])
  = Raises (JavaTypeError "Type null is not instantiable").
Proof.
  apply (primitive_and_null_not_instantiable Example.hierarchy Tnull).
  right. reflexivity.
Defined.

(** C7: in both call forms, when the number of supplied arguments differs
    from the declared parameter count, [check_types] fails with
    ArityMismatch whatever the arguments are: no argument is validated, nor
    its static type computed, before the arity check has passed. *)
Theorem arity_checked_before_arguments h :
  (forall receiver method_name args objType method,
     static_type h receiver = Returns objType ->
     objType ∉ primitives ->
     method_named h objType method_name = Some method ->
     length args <> length (argument_types method) ->
     check_types h (MethodCall receiver method_name args)
     = Raises (raised (ArityMismatch (method_callee objType method)
                         (length (argument_types method)) (length args))))
  /\
  (forall instantiated_type args,
     instantiated_type ∉ primitives ->
     instantiated_type <> Tnull ->
     length args <> length (constructor_argument_types (constructor h instantiated_type)) ->
     check_types h (ConstructorCall instantiated_type args)
     = Raises (raised (ArityMismatch (constructor_callee instantiated_type)
                         (length (constructor_argument_types (constructor h instantiated_type)))
                         (length args)))).
Proof.
  split.
  - intros receiver method_name args objType method Hrecv Hprim Hmeth Hlen. simpl.
    rewrite Hrecv. simpl. rewrite (not_primitive _ Hprim), Hmeth.
    rewrite bool_decide_eq_false_2 by exact Hlen. reflexivity.
  - intros instantiated_type args Hprim Hnull Hlen. simpl.
    rewrite (not_primitive _ Hprim).
    rewrite bool_decide_eq_false_2 by exact Hnull.
    rewrite bool_decide_eq_false_2 by exact Hlen. reflexivity.
Qed.

(** The surplus argument of each call is itself an invalid call. *)
Lemma arity_checked_before_arguments_witness :
  check_types Example.hierarchy (MethodCall (Literal "1" Tint) "toString" [])
  = Raises (JavaTypeError "Type int does not have methods")
  /\ check_types Example.hierarchy
       (MethodCall (Variable_ "s" Example.String) "length"
          [MethodCall (Literal "1" Tint) "toString" []])
     = Raises (JavaTypeError "Wrong number of arguments for String.length(): expected 0, got 1")
  /\ check_types Example.hierarchy
       (ConstructorCall Example.String
          [Literal "1" Tint; MethodCall (Literal "1" Tint) "toString" []])
     = Raises (JavaTypeError "Wrong number of arguments for String constructor: expected 1, got 2").
Proof.
  split; [reflexivity |]. split.
  - apply (proj1 (arity_checked_before_arguments Example.hierarchy)
             (Variable_ "s" Example.String) "length"
             [MethodCall (Literal "1" Tint) "toString" []]
             Example.String (mkMethod "length" [] Tint)).
    + reflexivity.
    + not_in_list.
    + reflexivity.
    + simpl. lia.
  - apply (proj2 (arity_checked_before_arguments Example.hierarchy) Example.String
             [Literal "1" Tint; MethodCall (Literal "1" Tint) "toString" []]).
    + not_in_list.
    + discriminate.
    + simpl. lia.
Defined.

(** C8: a method call whose receiver's static type [T] is not a primitive
    and does not itself declare a method of the given name fails with
    UnknownMethod; only [T]'s own methods are consulted, so the call fails
    in the same way when a direct supertype of [T] declares the method. *)
Theorem undeclared_method_rejected h receiver method_name args T :
  static_type h receiver = Returns T ->
  T ∉ primitives ->
  methods h T !! method_name = None ->
  check_types h (MethodCall receiver method_name args)
  = Raises (raised (UnknownMethod T method_name))
  /\ (forall S method,
        S ∈ direct_supertypes h T ->
        methods h S !! method_name = Some method ->
        check_types h (MethodCall receiver method_name args)
        = Raises (raised (UnknownMethod T method_name))).
Proof.
  intros Hrecv Hprim Hnone.
  assert (check_types h (MethodCall receiver method_name args)
          = Raises (raised (UnknownMethod T method_name))) as Hcheck.
  { simpl. rewrite Hrecv. simpl. rewrite (not_primitive _ Hprim).
    unfold method_named. rewrite Hnone. reflexivity. }
  split; [exact Hcheck | intros _ _ _ _; exact Hcheck].
Qed.

(** [hashCode] is declared on [Object], a direct supertype of [String]. *)
Lemma undeclared_method_rejected_witness :
  Example.Object ∈ direct_supertypes Example.hierarchy Example.String
  /\ methods Example.hierarchy Example.Object !! "hashCode" = Some (mkMethod "hashCode" [] Tint)
  /\ check_types Example.hierarchy (MethodCall (Variable_ "s" Example.String) "hashCode" [])
     = Raises (JavaTypeError "String has no method named hashCode").
Proof.
  split; [apply list_elem_of_here |]. split; [reflexivity |].
  apply (undeclared_method_rejected Example.hierarchy
           (Variable_ "s" Example.String) "hashCode" [] Example.String).
  - reflexivity.
  - not_in_list.
  - reflexivity.
Defined.

(** ** Calls that succeed *)

Section Success.

Context (h : Hierarchy).

Lemma has_type_passed assignable args expectedArgTypes :
  Forall2 (has_type h assignable) args expectedArgTypes ->
  exists passedArgTypes,
    mapM (static_type h) args = Returns passedArgTypes /\
    Forall2 assignable passedArgTypes expectedArgTypes.
Proof.
  induction 1 as [| e expected args expectedArgTypes (passed & He & Hassign) _
                    (passedArgTypes & Hargs & Hrest)].
  - exists []. split; [reflexivity | constructor].
  - exists (passed :: passedArgTypes). split; [| constructor; assumption].
    simpl. rewrite He. simpl. rewrite Hargs. reflexivity.
Qed.

Lemma method_call_succeeds receiver method_name args objType method :
  static_type h receiver = Returns objType ->
  objType ∉ primitives ->
  method_named h objType method_name = Some method ->
  length args = length (argument_types method) ->
  Forall2 (has_type h (method_assignable h)) args (argument_types method) ->
  Forall (valid h) args ->
  check_types h (MethodCall receiver method_name args) = Returns ().
Proof.
  intros Hrecv Hprim Hmeth Hlen Htypes Hvalid.
  destruct (has_type_passed _ _ _ Htypes) as (passedArgTypes & Hpassed & Hassign).
  rewrite (check_types_MethodCall h _ _ _ _ _ _ Hrecv Hprim Hmeth Hlen Hpassed).
  apply check_args_returns.
  - apply Forall_valid_checks, Hvalid.
  - eapply Forall2_impl; [exact Hassign |].
    intros passed expected. apply method_arg_accepted_spec.
Qed.

Lemma constructor_call_succeeds instantiated_type args :
  instantiated_type ∉ primitives ->
  instantiated_type <> Tnull ->
  length args = length (constructor_argument_types (constructor h instantiated_type)) ->
  Forall2 (has_type h (constructor_assignable h)) args
    (constructor_argument_types (constructor h instantiated_type)) ->
  Forall (valid h) args ->
  check_types h (ConstructorCall instantiated_type args) = Returns ().
Proof.
  intros Hprim Hnull Hlen Htypes Hvalid.
  destruct (has_type_passed _ _ _ Htypes) as (passedArgTypes & Hpassed & Hassign).
  rewrite (check_types_ConstructorCall h _ _ _ Hprim Hnull Hlen Hpassed).
  apply check_args_returns.
  - apply Forall_valid_checks, Hvalid.
  - eapply Forall2_impl; [exact Hassign |].
    intros passed expected. apply constructor_arg_accepted_spec.
Qed.

End Success.

(** C2: a well-typed call (a method call on a non-primitive receiver type
    that declares the method, or a constructor call of a non-primitive,
    non-null type, of the right arity, each argument's static type equal to
    the declared parameter type, a direct subtype of it, or null where null
    is permitted, and all child expressions valid) passes [check_types]. *)
Theorem well_typed_call_succeeds h e :
  well_typed_call h e -> check_types h e = Returns ().
Proof.
  destruct e as [n t | v t | | receiver n args | t args]; try contradiction.
  - intros (objType & method & Hrecv & Hprim & Hmeth & Hlen & Htypes & _ & Hvalid).
    eapply method_call_succeeds; eassumption.
  - intros (Hprim & Hnull & Hlen & Htypes & Hvalid).
    apply constructor_call_succeeds; assumption.
Qed.

(** The argument is a direct subtype of the parameter in the method call
    and null for a reference parameter in the constructor call. *)
Lemma well_typed_call_succeeds_witness :
  check_types Example.hierarchy
    (MethodCall (Variable_ "p" Example.Point) "scale"
       [ConstructorCall Example.Integer [NullLiteral]])
  = Returns ().
Proof.
  apply (well_typed_call_succeeds Example.hierarchy).
  exists Example.Point, (mkMethod "scale" [Example.Number] Example.Point).
  split; [reflexivity |]. split; [not_in_list |]. split; [reflexivity |].
  split; [reflexivity |]. split; [| split].
  - constructor; [| constructor].
    exists Example.Integer. split; [reflexivity |].
    right; left. apply list_elem_of_here.
  - reflexivity.
  - constructor; [| constructor].
    apply (well_typed_call_succeeds Example.hierarchy).
    split; [not_in_list |]. split; [discriminate |]. split; [reflexivity |].
    split.
    + constructor; [| constructor].
      exists Tnull. split; [reflexivity |].
      right; right. split; [reflexivity | not_in_list].
    + constructor; [reflexivity | constructor].
Defined.

(** C10: the receiver of a method call is never validated, only its static
    type is computed: when the receiver is itself ill-typed but its static
    type is a non-primitive type declaring the method, the arity matches and
    the arguments are valid and assignable, [check_types] succeeds and the
    receiver's error is not surfaced. *)
Theorem receiver_never_validated h receiver method_name args objType method err :
  check_types h receiver = Raises err ->
  static_type h receiver = Returns objType ->
  objType ∉ primitives ->
  method_named h objType method_name = Some method ->
  length args = length (argument_types method) ->
  Forall2 (has_type h (method_assignable h)) args (argument_types method) ->
  Forall (valid h) args ->
  check_types h (MethodCall receiver method_name args) = Returns ().
Proof. intros _. apply method_call_succeeds. Qed.

(** The receiver [new String()] lacks its constructor argument. *)
Lemma receiver_never_validated_witness :
  check_types Example.hierarchy (ConstructorCall Example.String [])
  = Raises (JavaTypeError "Wrong number of arguments for String constructor: expected 1, got 0")
  /\ check_types Example.hierarchy
       (MethodCall (ConstructorCall Example.String []) "length" [])
     = Returns ().
Proof.
  split; [reflexivity |].
  apply (receiver_never_validated Example.hierarchy
           (ConstructorCall Example.String []) "length" []
           Example.String (mkMethod "length" [] Tint)
           (JavaTypeError "Wrong number of arguments for String constructor: expected 1, got 0")).
  - reflexivity.
  - reflexivity.
  - not_in_list.
  - reflexivity.
  - reflexivity.
  - constructor.
  - constructor.
Defined.

(** ** Assignability of arguments *)

Section Assignability.

Context (h : Hierarchy).

Lemma method_call_rejects receiver method_name args objType method passedArgTypes
    i passed expected :
  static_type h receiver = Returns objType ->
  objType ∉ primitives ->
  method_named h objType method_name = Some method ->
  length args = length (argument_types method) ->
  mapM (static_type h) args = Returns passedArgTypes ->
  passedArgTypes !! i = Some passed ->
  argument_types method !! i = Some expected ->
  ~ method_assignable h passed expected ->
  Forall (valid h) (take (S i) args) ->
  check_types h (MethodCall receiver method_name args)
  = Raises (raised (ArgumentTypeMismatch (method_callee objType method)
                      (argument_types method) passedArgTypes)).
Proof.
  intros Hrecv Hprim Hmeth Hlen Hpassed Hi Hexp Hrej Hvalid.
  rewrite (check_types_MethodCall h _ _ _ _ _ _ Hrecv Hprim Hmeth Hlen Hpassed).
  eapply check_args_rejects; [| exact Hi | exact Hexp | |].
  - rewrite length_map. apply (mapM_outcome_length _ _ _ Hpassed).
  - apply not_true_is_false. rewrite method_arg_accepted_spec. exact Hrej.
  - rewrite <- (fmap_take (check_types h)). apply Forall_valid_checks, Hvalid.
Qed.

Lemma constructor_call_rejects instantiated_type args passedArgTypes i passed expected :
  instantiated_type ∉ primitives ->
  instantiated_type <> Tnull ->
  length args = length (constructor_argument_types (constructor h instantiated_type)) ->
  mapM (static_type h) args = Returns passedArgTypes ->
  passedArgTypes !! i = Some passed ->
  constructor_argument_types (constructor h instantiated_type) !! i = Some expected ->
  ~ constructor_assignable h passed expected ->
  Forall (valid h) (take (S i) args) ->
  check_types h (ConstructorCall instantiated_type args)
  = Raises (raised (ArgumentTypeMismatch (constructor_callee instantiated_type)
                      (constructor_argument_types (constructor h instantiated_type))
                      passedArgTypes)).
Proof.
  intros Hprim Hnull Hlen Hpassed Hi Hexp Hrej Hvalid.
  rewrite (check_types_ConstructorCall h _ _ _ Hprim Hnull Hlen Hpassed).
  eapply check_args_rejects; [| exact Hi | exact Hexp | |].
  - rewrite length_map. apply (mapM_outcome_length _ _ _ Hpassed).
  - apply not_true_is_false. rewrite constructor_arg_accepted_spec. exact Hrej.
  - rewrite <- (fmap_take (check_types h)). apply Forall_valid_checks, Hvalid.
Qed.

Lemma method_call_accepts receiver method_name args objType method passedArgTypes :
  static_type h receiver = Returns objType ->
  objType ∉ primitives ->
  method_named h objType method_name = Some method ->
  length args = length (argument_types method) ->
  mapM (static_type h) args = Returns passedArgTypes ->
  Forall (valid h) args ->
  (forall j passed expected,
     passedArgTypes !! j = Some passed ->
     argument_types method !! j = Some expected ->
     method_assignable h passed expected) ->
  check_types h (MethodCall receiver method_name args) = Returns ().
Proof.
  intros Hrecv Hprim Hmeth Hlen Hpassed Hvalid Hall.
  rewrite (check_types_MethodCall h _ _ _ _ _ _ Hrecv Hprim Hmeth Hlen Hpassed).
  apply check_args_returns; [apply Forall_valid_checks, Hvalid |].
  apply Forall2_same_length_lookup_2.
  - rewrite (mapM_outcome_length _ _ _ Hpassed). exact Hlen.
  - intros j passed expected Hj Hexp. apply method_arg_accepted_spec. eauto.
Qed.

Lemma constructor_call_accepts instantiated_type args passedArgTypes :
  instantiated_type ∉ primitives ->
  instantiated_type <> Tnull ->
  length args = length (constructor_argument_types (constructor h instantiated_type)) ->
  mapM (static_type h) args = Returns passedArgTypes ->
  Forall (valid h) args ->
  (forall j passed expected,
     passedArgTypes !! j = Some passed ->
     constructor_argument_types (constructor h instantiated_type) !! j = Some expected ->
     constructor_assignable h passed expected) ->
  check_types h (ConstructorCall instantiated_type args) = Returns ().
Proof.
  intros Hprim Hnull Hlen Hpassed Hvalid Hall.
  rewrite (check_types_ConstructorCall h _ _ _ Hprim Hnull Hlen Hpassed).
  apply check_args_returns; [apply Forall_valid_checks, Hvalid |].
  apply Forall2_same_length_lookup_2.
  - rewrite (mapM_outcome_length _ _ _ Hpassed). exact Hlen.
  - intros j passed expected Hj Hexp. apply constructor_arg_accepted_spec. eauto.
Qed.

End Assignability.



(** ** The argument rule of method calls *)

Lemma last_char_app s1 s2 :
  last_char (s1 +:+ s2)
  = match last_char s2 with Some c => Some c | None => last_char s1 end.
Proof.
  induction s1 as [| a s1 IH].
  - change ("" +:+ s2) with s2. destruct (last_char s2); reflexivity.
  - change (String a s1 +:+ s2) with (String a (s1 +:+ s2)). simpl.
    rewrite IH. destruct (last_char s2); reflexivity.
Qed.

Lemma expects_arguments_msg_last callee expected passed :
  last_char (expects_arguments_msg callee expected passed) = Some ")"%char.
Proof.
  unfold expects_arguments_msg, names. rewrite !last_char_app. reflexivity.
Qed.

(** The error of an invalid argument is raised before the argument's type
    is compared: in [p.setLabel(new int(), 1)] position 0 fails all three
    conditions, yet the call fails with the NotInstantiableType error of
    [new int()] and with no ArgumentTypeMismatch error at all. *)
Lemma invalid_argument_error_precedes_mismatch :
  static_type Example.hierarchy Example.set_label_receiver = Returns Example.Point
  /\ (Example.Point ∉ primitives)
  /\ method_named Example.hierarchy Example.Point "setLabel" = Some Example.set_label
  /\ length Example.set_label_args = length (argument_types Example.set_label)
  /\ mapM (static_type Example.hierarchy) Example.set_label_args = Returns [Tint; Tint]
  /\ argument_types Example.set_label !! 0 = Some Example.String
  /\ ~ method_assignable Example.hierarchy Tint Example.String
  /\ check_types Example.hierarchy
       (MethodCall Example.set_label_receiver "setLabel" Example.set_label_args)
     = Raises (raised (NotInstantiableType Tint))
  /\ forall callee expected passed,
       check_types Example.hierarchy
         (MethodCall Example.set_label_receiver "setLabel" Example.set_label_args)
       <> Raises (raised (ArgumentTypeMismatch callee expected passed)).
Proof.
  split; [reflexivity |]. split; [not_in_list |]. split; [reflexivity |].
  split; [reflexivity |]. split; [reflexivity |]. split; [reflexivity |].
  split; [| split; [reflexivity |]].
  - intros [Heq | [Hin | Heq]]; [discriminate | revert Hin; not_in_list | discriminate].
  - intros callee expected passed Heq.
    assert (last_char "Type int is not instantiable"
            = last_char (expects_arguments_msg callee expected passed)) as Hlast.
    { f_equal. vm_compute in Heq. injection Heq as Heq. rewrite Heq. reflexivity. }
    rewrite expects_arguments_msg_last in Hlast. vm_compute in Hlast. discriminate.
Qed.

(** C1 (amended): for a method call whose receiver's static type is
    non-primitive and declares the method, whose argument count matches and
    whose arguments all have a static type: a position is accepted by the
    type test exactly when the argument type equals the parameter type, or
    the parameter type is a direct supertype of it, or the argument type is
    null (whatever the parameter type); the call succeeds exactly when every
    argument is valid and every position accepted; and when some position
    fails the three conditions and the arguments up to that position are
    valid, the call fails with ArgumentTypeMismatch naming the expected and
    the passed types; an invalid argument whose predecessors are valid and
    accepted makes the call fail with that argument's own error. *)
Theorem method_argument_rule h receiver method_name args objType method passedArgTypes :
  static_type h receiver = Returns objType ->
  objType ∉ primitives ->
  method_named h objType method_name = Some method ->
  length args = length (argument_types method) ->
  mapM (static_type h) args = Returns passedArgTypes ->
  (forall passed expected,
     method_arg_accepted h passed expected = true
     <-> passed = expected \/ expected ∈ direct_supertypes h passed \/ passed = Tnull)
  /\
  (check_types h (MethodCall receiver method_name args) = Returns ()
   <-> Forall (valid h) args
       /\ Forall2 (method_assignable h) passedArgTypes (argument_types method))
  /\
  (forall i passed expected,
     passedArgTypes !! i = Some passed ->
     argument_types method !! i = Some expected ->
     ~ (passed = expected \/ expected ∈ direct_supertypes h passed \/ passed = Tnull) ->
     Forall (valid h) (take (S i) args) ->
     check_types h (MethodCall receiver method_name args)
     = Raises (raised (ArgumentTypeMismatch (method_callee objType method)
                         (argument_types method) passedArgTypes)))
  /\
  (forall j e x,
     args !! j = Some e ->
     check_types h e = Raises x ->
     Forall (valid h) (take j args) ->
     Forall2 (method_assignable h) (take j passedArgTypes) (take j (argument_types method)) ->
     check_types h (MethodCall receiver method_name args) = Raises x).
Proof.
  intros Hrecv Hprim Hmeth Hlen Hpassed.
  split; [intros passed expected; apply method_arg_accepted_spec |].
  split; [| split].
  - rewrite (check_types_MethodCall h _ _ _ _ _ _ Hrecv Hprim Hmeth Hlen Hpassed).
    split.
    + intros Hok. apply check_args_returns_inv in Hok as [Hchecks Htypes].
      * split; [apply Forall_valid_checks, Hchecks |].
        eapply Forall2_impl; [exact Htypes |].
        intros passed expected. apply method_arg_accepted_spec.
      * rewrite length_map. apply (mapM_outcome_length _ _ _ Hpassed).
      * rewrite length_map. symmetry. exact Hlen.
    + intros [Hvalid Htypes]. apply check_args_returns.
      * apply Forall_valid_checks, Hvalid.
      * eapply Forall2_impl; [exact Htypes |].
        intros passed expected. apply method_arg_accepted_spec.
  - intros i passed expected Hi Hexp Hrej Hvalid.
    eapply method_call_rejects; eassumption.
  - intros j e x Hj He Hvalid Htypes.
    rewrite (check_types_MethodCall h _ _ _ _ _ _ Hrecv Hprim Hmeth Hlen Hpassed).
    apply (check_args_propagates _ _ _ _ _ j).
    + rewrite length_map. apply (mapM_outcome_length _ _ _ Hpassed).
    + rewrite length_map. symmetry. exact Hlen.
    + change (map (check_types h) args) with (check_types h <$> args).
      rewrite list_lookup_fmap, Hj. simpl. rewrite He. reflexivity.
    + rewrite <- (fmap_take (check_types h)). apply Forall_valid_checks, Hvalid.
    + eapply Forall2_impl; [exact Htypes |].
      intros passed expected. apply method_arg_accepted_spec.
Qed.

(** [p.setLabel(1, 1)]: the int at position 0 is not assignable to [String]. *)
Lemma method_argument_rule_witness :
  check_types Example.hierarchy
    (MethodCall (Variable_ "p" Example.Point) "setLabel" [Literal "1" Tint; Literal "1" Tint])
  = Raises (JavaTypeError
              "Point.setLabel() expects arguments of type (String, int), but got (int, int)").
Proof.
  assert (Example.Point ∉ primitives) as Hprim by not_in_list.
  destruct (method_argument_rule Example.hierarchy (Variable_ "p" Example.Point) "setLabel"
              [Literal "1" Tint; Literal "1" Tint] Example.Point Example.set_label [Tint; Tint]
              eq_refl Hprim eq_refl eq_refl eq_refl) as (_ & _ & Hrejects & _).
  apply (Hrejects 0 Tint Example.String).
  - reflexivity.
  - reflexivity.
  - intros [Heq | [Hin | Heq]]; [discriminate | revert Hin; not_in_list | discriminate].
  - constructor; [reflexivity | constructor].
Defined.

(** ** Single-level widening *)

(** [ArrayList]'s direct supertypes contain [AbstractList], whose direct
    supertypes contain [List]; an [ArrayList] argument is nevertheless
    accepted where a [List] is declared, by both call forms, because [List]
    is also a direct supertype of [ArrayList]. *)
Lemma direct_and_inherited_supertype_accepted :
  Example.AbstractList ∈ direct_supertypes Example.hierarchy Example.ArrayList
  /\ Example.List ∈ direct_supertypes Example.hierarchy Example.AbstractList
  /\ Example.ArrayList <> Tnull
  /\ static_type Example.hierarchy (Variable_ "a" Example.ArrayList) = Returns Example.ArrayList
  /\ method_named Example.hierarchy Example.List "addAll"
     = Some (mkMethod "addAll" [Example.List] Tboolean)
  /\ constructor Example.hierarchy Example.ArrayList = mkConstructor [Example.List]
  /\ check_types Example.hierarchy Example.add_all_call = Returns ()
  /\ check_types Example.hierarchy Example.new_array_list = Returns ().
Proof.
  split; [apply list_elem_of_here |]. split; [apply list_elem_of_here |].
  split; [discriminate |]. repeat split; reflexivity.
Qed.

(** C6 (amended): widening is single-level in both call forms.  Take a
    call that passes the checks made before its argument loop (a method
    call whose receiver's static type is non-primitive and declares the
    method, or a constructor call of a type that is neither a primitive nor
    null, with the declared number of arguments) and whose arguments all
    have a static type.  If [A]'s direct supertypes contain [B], [B]'s
    contain [C], and [C] is neither [A] itself nor one of [A]'s direct
    supertypes, then a non-null argument of static type [A] is accepted at
    a position declared [B] (the type test passes, and the call succeeds
    when all arguments are valid and the other positions assignable) and
    rejected at a position declared [C]: the type test fails, and the call
    fails with ArgumentTypeMismatch when the arguments up to that position
    are valid. *)
Theorem widening_is_single_level h A B C :
  B ∈ direct_supertypes h A ->
  C ∈ direct_supertypes h B ->
  A <> Tnull ->
  A <> C ->
  C ∉ direct_supertypes h A ->
  (method_arg_accepted h A B = true /\ constructor_arg_accepted h A B = true /\
   method_arg_accepted h A C = false /\ constructor_arg_accepted h A C = false)
  /\
  (forall receiver method_name args objType method passedArgTypes i,
     static_type h receiver = Returns objType ->
     objType ∉ primitives ->
     method_named h objType method_name = Some method ->
     length args = length (argument_types method) ->
     mapM (static_type h) args = Returns passedArgTypes ->
     passedArgTypes !! i = Some A ->
     (argument_types method !! i = Some B ->
      Forall (valid h) args ->
      (forall j passed expected,
         j <> i ->
         passedArgTypes !! j = Some passed ->
         argument_types method !! j = Some expected ->
         method_assignable h passed expected) ->
      check_types h (MethodCall receiver method_name args) = Returns ())
     /\
     (argument_types method !! i = Some C ->
      Forall (valid h) (take (S i) args) ->
      check_types h (MethodCall receiver method_name args)
      = Raises (raised (ArgumentTypeMismatch (method_callee objType method)
                          (argument_types method) passedArgTypes))))
  /\
  (forall instantiated_type args passedArgTypes i,
     instantiated_type ∉ primitives ->
     instantiated_type <> Tnull ->
     length args = length (constructor_argument_types (constructor h instantiated_type)) ->
     mapM (static_type h) args = Returns passedArgTypes ->
     passedArgTypes !! i = Some A ->
     (constructor_argument_types (constructor h instantiated_type) !! i = Some B ->
      Forall (valid h) args ->
      (forall j passed expected,
         j <> i ->
         passedArgTypes !! j = Some passed ->
         constructor_argument_types (constructor h instantiated_type) !! j = Some expected ->
         constructor_assignable h passed expected) ->
      check_types h (ConstructorCall instantiated_type args) = Returns ())
     /\
     (constructor_argument_types (constructor h instantiated_type) !! i = Some C ->
      Forall (valid h) (take (S i) args) ->
      check_types h (ConstructorCall instantiated_type args)
      = Raises (raised (ArgumentTypeMismatch (constructor_callee instantiated_type)
                          (constructor_argument_types (constructor h instantiated_type))
                          passedArgTypes)))).
Proof.
  intros HAB HBC Hnull Hneq Hnot.
  assert (method_assignable h A B) as HmB by (right; left; exact HAB).
  assert (constructor_assignable h A B) as HcB by (right; left; exact HAB).
  assert (~ method_assignable h A C) as HmC by (intros [? | [? | ?]]; contradiction).
  assert (~ constructor_assignable h A C) as HcC
    by (intros [? | [? | [? _]]]; contradiction).
  split; [| split].
  - split; [apply method_arg_accepted_spec, HmB |].
    split; [apply constructor_arg_accepted_spec, HcB |].
    split; apply not_true_is_false.
    + rewrite method_arg_accepted_spec. exact HmC.
    + rewrite constructor_arg_accepted_spec. exact HcC.
  - intros receiver method_name args objType method passedArgTypes i
      Hrecv Hprim Hmeth Hlen Hpassed Hi.
    split.
    + intros Hexp Hvalid Hothers.
      eapply method_call_accepts; try eassumption.
      intros j passed expected Hj Hexpj.
      destruct (decide (j = i)) as [-> | Hne]; [| eauto].
      rewrite Hi in Hj. rewrite Hexp in Hexpj.
      injection Hj as <-. injection Hexpj as <-. exact HmB.
    + intros Hexp Hvalid. eapply method_call_rejects; eassumption.
  - intros instantiated_type args passedArgTypes i Hprim Hnotnull Hlen Hpassed Hi.
    split.
    + intros Hexp Hvalid Hothers.
      eapply constructor_call_accepts; try eassumption.
      intros j passed expected Hj Hexpj.
      destruct (decide (j = i)) as [-> | Hne]; [| eauto].
      rewrite Hi in Hj. rewrite Hexp in Hexpj.
      injection Hj as <-. injection Hexpj as <-. exact HcB.
    + intros Hexp Hvalid. eapply constructor_call_rejects; eassumption.
Qed.

(** [Integer]'s only direct supertype is [Number], whose only direct
    supertype is [Object]. *)
Lemma widening_is_single_level_witness :
  check_types Example.hierarchy
    (MethodCall (Variable_ "p" Example.Point) "scale" [Variable_ "i" Example.Integer])
  = Returns ()
  /\ check_types Example.hierarchy
       (MethodCall (Variable_ "o" Example.Object) "equals" [Variable_ "i" Example.Integer])
     = Raises (JavaTypeError
                 "Object.equals() expects arguments of type (Object), but got (Integer)")
  /\ check_types Example.hierarchy
       (ConstructorCall Example.Integer [Variable_ "i" Example.Integer])
     = Returns ()
  /\ check_types Example.hierarchy
       (ConstructorCall Example.Number [Variable_ "i" Example.Integer])
     = Raises (JavaTypeError
                 "Number constructor expects arguments of type (Object), but got (Integer)").
Proof.
  assert (Example.Number ∈ direct_supertypes Example.hierarchy Example.Integer) as HAB
    by apply list_elem_of_here.
  assert (Example.Object ∈ direct_supertypes Example.hierarchy Example.Number) as HBC
    by apply list_elem_of_here.
  assert (Example.Integer <> Tnull) as Hnull by discriminate.
  assert (Example.Integer <> Example.Object) as Hneq by discriminate.
  assert (Example.Object ∉ direct_supertypes Example.hierarchy Example.Integer) as Hnot
    by not_in_list.
  destruct (widening_is_single_level Example.hierarchy
              Example.Integer Example.Number Example.Object HAB HBC Hnull Hneq Hnot)
    as (_ & Hmethod & Hconstructor).
  assert (Forall (valid Example.hierarchy) [Variable_ "i" Example.Integer]) as Hvalid
    by (constructor; [reflexivity | constructor]).
  assert (forall (P : Type_ -> Type_ -> Prop) (expectedArgTypes : list Type_)
            j passed expected,
            j <> 0 -> [Example.Integer] !! j = Some passed ->
            expectedArgTypes !! j = Some expected -> P passed expected) as Hothers.
  { intros P expectedArgTypes [| j] passed expected Hj; [contradiction | discriminate]. }
  split; [| split; [| split]].
  - apply (Hmethod (Variable_ "p" Example.Point) "scale" [Variable_ "i" Example.Integer]
             Example.Point (mkMethod "scale" [Example.Number] Example.Point)
             [Example.Integer] 0 eq_refl ltac:(not_in_list) eq_refl eq_refl eq_refl eq_refl);
      [reflexivity | exact Hvalid | apply Hothers].
  - apply (Hmethod (Variable_ "o" Example.Object) "equals" [Variable_ "i" Example.Integer]
             Example.Object (mkMethod "equals" [Example.Object] Tboolean)
             [Example.Integer] 0 eq_refl ltac:(not_in_list) eq_refl eq_refl eq_refl eq_refl);
      [reflexivity | exact Hvalid].
  - apply (Hconstructor Example.Integer [Variable_ "i" Example.Integer] [Example.Integer] 0
             ltac:(not_in_list) ltac:(discriminate) eq_refl eq_refl eq_refl);
      [reflexivity | exact Hvalid | apply Hothers].
  - apply (Hconstructor Example.Number [Variable_ "i" Example.Integer] [Example.Integer] 0
             ltac:(not_in_list) ltac:(discriminate) eq_refl eq_refl eq_refl);
      [reflexivity | exact Hvalid].
Defined.

(** ** What an error outcome carries *)

Section Errors.

Context (h : Hierarchy).

Lemma static_type_raises e x :
  static_type h e = Raises x -> x = AttributeError.
Proof.
  induction e as [n t | v t | | receiver n args IH _ | t args _] using Expression_nested_ind;
    simpl; try discriminate.
  destruct (static_type h receiver) as [objType | y]; simpl.
  - destruct (method_named h objType n); [discriminate | intros [= <-]; reflexivity].
  - intros [= <-]. apply IH. reflexivity.
Qed.

Lemma mapM_static_type_raises args x :
  mapM (static_type h) args = Raises x -> x = AttributeError.
Proof.
  induction args as [| e args IH]; simpl; [discriminate |].
  destruct (static_type h e) as [t | y] eqn:He; simpl.
  - destruct (mapM (static_type h) args); simpl; [discriminate |].
    intros [= <-]. apply IH. reflexivity.
  - intros [= <-]. apply (static_type_raises e). exact He.
Qed.

Lemma argument_loop_raises accepted callee expectedArgTypes args x :
  length args = length expectedArgTypes ->
  Forall (fun e => forall y, check_types h e = Raises y ->
                             y = AttributeError \/ exists c, y = raised c) args ->
  (passedArgTypes ← mapM (static_type h) args;
   for_range 0 (length args)
     (check_arg accepted (expects_arguments_msg callee expectedArgTypes passedArgTypes)
        (map (check_types h) args) passedArgTypes expectedArgTypes)) = Raises x ->
  x = AttributeError \/ exists c, x = raised c.
Proof.
  intros Hlen IH.
  destruct (mapM (static_type h) args) as [passedArgTypes | y] eqn:Hpassed; simpl.
  - rewrite <- (length_map (check_types h) args).
    rewrite for_range_check_arg.
    + intros Hraises. apply check_args_raises in Hraises as [-> | Hin].
      * right. exists (ArgumentTypeMismatch callee expectedArgTypes passedArgTypes).
        reflexivity.
      * apply list_elem_of_fmap in Hin as (e & Hcheck & He).
        rewrite Forall_forall in IH. apply (IH e); [exact He | symmetry; exact Hcheck].
    + rewrite length_map. apply (mapM_outcome_length _ _ _ Hpassed).
    + rewrite length_map. symmetry. exact Hlen.
  - intros [= <-]. left. apply (mapM_static_type_raises args). exact Hpassed.
Qed.

(** Whatever [check_types] raises is [AttributeError] or the exception of
    one of the five causes. *)
Lemma check_types_raises_shape e x :
  check_types h e = Raises x ->
  x = AttributeError \/ exists c, x = raised c.
Proof.
  revert x.
  induction e as [n t | v t | | receiver n args _ IH | t args IH] using Expression_nested_ind;
    intros x; simpl; try discriminate.
  - destruct (static_type h receiver) as [objType | y] eqn:Hrecv; simpl.
    + case_bool_decide.
      { intros [= <-]. right. exists (NotInstantiableReceiver objType). reflexivity. }
      destruct (method_named h objType n) as [method |].
      * case_bool_decide as Hlen.
        -- apply argument_loop_raises; assumption.
        -- intros [= <-]. right.
           exists (ArityMismatch (method_callee objType method)
                     (length (argument_types method)) (length args)).
           reflexivity.
      * intros [= <-]. right. exists (UnknownMethod objType n). reflexivity.
    + intros [= <-]. left. apply (static_type_raises receiver). exact Hrecv.
  - case_bool_decide.
    { intros [= <-]. right. exists (NotInstantiableType t). reflexivity. }
    case_bool_decide as Hnull.
    { intros [= <-]. right. exists (NotInstantiableType Tnull). reflexivity. }
    case_bool_decide as Hlen.
    + apply argument_loop_raises; assumption.
    + intros [= <-]. right.
      exists (ArityMismatch (constructor_callee t)
                (length (constructor_argument_types (constructor h t))) (length args)).
      reflexivity.
Qed.

End Errors.

(** Two calls over [Example.odd_names] fail for different causes, an
    undeclared method and a wrong number of arguments, with one and the same
    exception: the cause cannot be read off the error outcome. *)
Lemma error_kind_not_inspectable :
  (static_type Example.odd_names (Variable_ "x" Example.odd_receiver)
   = Returns Example.odd_receiver
   /\ method_named Example.odd_names Example.odd_receiver Example.odd_method_name = None
   /\ check_types Example.odd_names Example.unknown_method_call
      = Raises (raised (UnknownMethod Example.odd_receiver Example.odd_method_name)))
  /\
  (static_type Example.odd_names (Variable_ "y" Example.odd_declaring)
   = Returns Example.odd_declaring
   /\ method_named Example.odd_names Example.odd_declaring "m" = Some (mkMethod "m" [] Tint)
   /\ check_types Example.odd_names Example.wrong_arity_call
      = Raises (raised (ArityMismatch
                          (method_callee Example.odd_declaring (mkMethod "m" [] Tint)) 0 1)))
  /\ check_types Example.odd_names Example.unknown_method_call
     = check_types Example.odd_names Example.wrong_arity_call
  /\ ~ kind_inspectable.
Proof.
  split; [repeat split; reflexivity |]. split; [repeat split; reflexivity |].
  split; [reflexivity |].
  intros [kind_of Hkind].
  pose proof (Hkind (UnknownMethod Example.odd_receiver Example.odd_method_name)) as Hunknown.
  pose proof (Hkind (ArityMismatch
                       (method_callee Example.odd_declaring (mkMethod "m" [] Tint)) 0 1))
    as Harity.
  vm_compute in Hunknown, Harity. congruence.
Qed.

(** C9 (amended): the error outcome of [check_types] carries a
    human-readable message and no error kind: every [JavaTypeError] that
    [check_types] raises consists of exactly the message text that one of
    the five causes (NotInstantiableReceiver, UnknownMethod,
    NotInstantiableType, ArityMismatch, ArgumentTypeMismatch) formats, and
    no function of the raised exception yields the kind of its cause for
    all type and method names. *)
Theorem type_error_carries_message_only :
  (forall h e msg,
     check_types h e = Raises (JavaTypeError msg) ->
     exists c, raised c = JavaTypeError msg)
  /\ ~ kind_inspectable.
Proof.
  split.
  - intros h e msg Hraises.
    destruct (check_types_raises_shape h e _ Hraises) as [Hattr | [c Hc]];
      [discriminate | exists c; symmetry; exact Hc].
  - intros [kind_of Hkind].
    pose proof (Hkind (UnknownMethod (ClassOrInterface "Wrong number of arguments for A")
                         "B.m(): expected 0, got 1")) as Hunknown.
    pose proof (Hkind (ArityMismatch "A has no method named B.m()" 0 1)) as Harity.
    vm_compute in Hunknown, Harity. congruence.
Qed.

Lemma type_error_carries_message_only_witness :
  exists c, raised c = JavaTypeError "String has no method named hashCode".
Proof.
  apply (proj1 type_error_carries_message_only Example.hierarchy
           (MethodCall (Variable_ "s" Example.String) "hashCode" [])).
  reflexivity.
Defined.

(** ** Further properties of [static_type] and [check_types] *)

Section Further.

Context (h : Hierarchy).

Lemma mapM_static_type_crashes args e x :
  e ∈ args ->
  static_type h e = Raises x ->
  mapM (static_type h) args = Raises AttributeError.
Proof.
  induction args as [| a args IH]; intros Hin He.
  - apply elem_of_nil in Hin. contradiction.
  - simpl. destruct (static_type h a) as [t | y] eqn:Ha; simpl.
    + apply elem_of_cons in Hin as [-> | Hin]; [rewrite He in Ha; discriminate |].
      rewrite (IH Hin He). reflexivity.
    + rewrite (static_type_raises h a y Ha). reflexivity.
Qed.

Lemma static_type_forget e :
  static_type h (forget e) = static_type h e.
Proof.
  induction e as [n t | v t | | receiver n args IH _ | t args _] using Expression_nested_ind;
    simpl; try reflexivity.
  rewrite IH. reflexivity.
Qed.

Lemma mapM_static_type_forget args :
  mapM (static_type h) (map forget args) = mapM (static_type h) args.
Proof.
  induction args as [| e args IH]; simpl; [reflexivity |].
  rewrite static_type_forget, IH. reflexivity.
Qed.

Lemma map_check_types_forget args :
  Forall (fun e => check_types h (forget e) = check_types h e) args ->
  map (check_types h) (map forget args) = map (check_types h) args.
Proof.
  induction 1 as [| e args He _ IH]; simpl; [reflexivity |].
  rewrite He, IH. reflexivity.
Qed.

Lemma method_call_inversion receiver method_name args :
  check_types h (MethodCall receiver method_name args) = Returns () ->
  exists objType method passedArgTypes,
    static_type h receiver = Returns objType /\
    (objType ∉ primitives) /\
    method_named h objType method_name = Some method /\
    length args = length (argument_types method) /\
    mapM (static_type h) args = Returns passedArgTypes /\
    Forall (valid h) args /\
    Forall2 (method_assignable h) passedArgTypes (argument_types method).
Proof.
  simpl.
  destruct (static_type h receiver) as [objType | y]; simpl; [| discriminate].
  case_bool_decide as Hprim; [discriminate |].
  destruct (method_named h objType method_name) as [method |] eqn:Hmeth; [| discriminate].
  case_bool_decide as Hlen; [| discriminate].
  destruct (mapM (static_type h) args) as [passedArgTypes | y] eqn:Hpassed;
    simpl; [| discriminate].
  rewrite <- (length_map (check_types h) args).
  rewrite for_range_check_arg.
  - intros Hok. exists objType, method, passedArgTypes.
    apply check_args_returns_inv in Hok as [Hchecks Htypes].
    + split; [reflexivity |]. split; [exact Hprim |]. split; [exact Hmeth |].
      split; [rewrite length_map; exact Hlen |]. split; [reflexivity |].
      split; [apply Forall_valid_checks, Hchecks |].
      eapply Forall2_impl; [exact Htypes |].
      intros passed expected. apply method_arg_accepted_spec.
    + rewrite length_map. apply (mapM_outcome_length _ _ _ Hpassed).
    + rewrite length_map. symmetry. exact Hlen.
  - rewrite length_map. apply (mapM_outcome_length _ _ _ Hpassed).
  - rewrite length_map. symmetry. exact Hlen.
Qed.

Lemma constructor_call_inversion instantiated_type args :
  check_types h (ConstructorCall instantiated_type args) = Returns () ->
  (instantiated_type ∉ primitives) /\
  instantiated_type <> Tnull /\
  length args = length (constructor_argument_types (constructor h instantiated_type)) /\
  exists passedArgTypes,
    mapM (static_type h) args = Returns passedArgTypes /\
    Forall (valid h) args /\
    Forall2 (constructor_assignable h) passedArgTypes
      (constructor_argument_types (constructor h instantiated_type)).
Proof.
  simpl.
  case_bool_decide as Hprim; [discriminate |].
  case_bool_decide as Hnull; [discriminate |].
  case_bool_decide as Hlen; [| discriminate].
  destruct (mapM (static_type h) args) as [passedArgTypes | y] eqn:Hpassed;
    simpl; [| discriminate].
  rewrite <- (length_map (check_types h) args).
  rewrite for_range_check_arg.
  - intros Hok. split; [exact Hprim |]. split; [exact Hnull |].
    split; [rewrite length_map; exact Hlen |].
    exists passedArgTypes.
    apply check_args_returns_inv in Hok as [Hchecks Htypes].
    + split; [reflexivity |]. split; [apply Forall_valid_checks, Hchecks |].
      eapply Forall2_impl; [exact Htypes |].
      intros passed expected. apply constructor_arg_accepted_spec.
    + rewrite length_map. apply (mapM_outcome_length _ _ _ Hpassed).
    + rewrite length_map. symmetry. exact Hlen.
  - rewrite length_map. apply (mapM_outcome_length _ _ _ Hpassed).
  - rewrite length_map. symmetry. exact Hlen.
Qed.

Lemma method_call_receiver_raises receiver method_name args x :
  static_type h receiver = Raises x ->
  check_types h (MethodCall receiver method_name args) = Raises x.
Proof. intros Hrecv. simpl. rewrite Hrecv. reflexivity. Qed.

Lemma method_call_static_type_raises receiver method_name args x :
  static_type h receiver = Raises x ->
  static_type h (MethodCall receiver method_name args) = Raises x.
Proof. intros Hrecv. simpl. rewrite Hrecv. reflexivity. Qed.

Lemma passed_has_type assignable args passedArgTypes expectedArgTypes :
  mapM (static_type h) args = Returns passedArgTypes ->
  Forall2 assignable passedArgTypes expectedArgTypes ->
  Forall2 (has_type h assignable) args expectedArgTypes.
Proof.
  revert passedArgTypes expectedArgTypes.
  induction args as [| e args IH]; intros passedArgTypes expectedArgTypes; simpl.
  - intros [= <-] Htypes. inversion Htypes. constructor.
  - destruct (static_type h e) as [t |] eqn:He; simpl; [| discriminate].
    destruct (mapM (static_type h) args) as [ts |]; simpl; [| discriminate].
    intros [= <-] Htypes.
    inversion Htypes as [| ? expected ? expectedArgTypes' Hassign Hrest]; subst.
    constructor; [exists t; split; [exact He | exact Hassign] |].
    apply (IH ts); [reflexivity | exact Hrest].
Qed.

End Further.

(** X1: [static_type] never reports a type error: it can fail only on a
    method call, and then only with the [AttributeError] of reading
    [return_type] off a method that was not found. *)
Theorem static_type_fails_only_on_method_calls h e x :
  static_type h e = Raises x ->
  x = AttributeError /\ exists receiver method_name args, e = MethodCall receiver method_name args.
Proof.
  intros Hraises. split; [apply (static_type_raises h e), Hraises |].
  destruct e as [n t | v t | | receiver n args | t args]; try discriminate.
  exists receiver, n, args. reflexivity.
Qed.

Lemma static_type_fails_only_on_method_calls_witness :
  AttributeError = AttributeError
  /\ exists receiver method_name args,
       MethodCall (Literal "1" Tint) "toString" [] = MethodCall receiver method_name args.
Proof.
  apply (static_type_fails_only_on_method_calls Example.hierarchy
           (MethodCall (Literal "1" Tint) "toString" []) AttributeError).
  reflexivity.
Defined.

(** X2: validation guards [static_type]: an expression that passes
    [check_types] has a static type, so that [static_type] does not raise
    on it, even though the receiver of a valid method call is never
    validated. *)
Theorem valid_expression_has_static_type h e :
  check_types h e = Returns () -> exists t, static_type h e = Returns t.
Proof. apply valid_static_type. Qed.

Lemma valid_expression_has_static_type_witness :
  exists t,
    static_type Example.hierarchy
      (MethodCall (ConstructorCall Example.String []) "length" []) = Returns t.
Proof.
  apply (valid_expression_has_static_type Example.hierarchy
           (MethodCall (ConstructorCall Example.String []) "length" [])).
  reflexivity.
Defined.

(** X3: a method call passes [check_types] exactly when its receiver has a
    non-primitive static type that declares the method, the number of
    arguments is the declared one, and the arguments are all valid and
    assignable; the receiver itself need not be valid, and the static type
    of the call is then the declared return type. *)
Theorem method_call_valid_iff h receiver method_name args :
  check_types h (MethodCall receiver method_name args) = Returns ()
  <-> exists objType method,
        static_type h receiver = Returns objType /\
        (objType ∉ primitives) /\
        method_named h objType method_name = Some method /\
        length args = length (argument_types method) /\
        Forall2 (has_type h (method_assignable h)) args (argument_types method) /\
        Forall (valid h) args /\
        static_type h (MethodCall receiver method_name args) = Returns (return_type method).
Proof.
  split.
  - intros Hok.
    destruct (method_call_inversion h _ _ _ Hok)
      as (objType & method & passedArgTypes & Hrecv & Hprim & Hmeth & Hlen & Hpassed
          & Hvalid & Htypes).
    exists objType, method.
    split; [exact Hrecv |]. split; [exact Hprim |]. split; [exact Hmeth |].
    split; [exact Hlen |].
    split; [eapply passed_has_type; eassumption |].
    split; [exact Hvalid |].
    simpl. rewrite Hrecv. simpl. rewrite Hmeth. reflexivity.
  - intros (objType & method & Hrecv & Hprim & Hmeth & Hlen & Htypes & Hvalid & _).
    eapply method_call_succeeds; eassumption.
Qed.

(** X4: a constructor call passes [check_types] exactly when the
    instantiated type is neither a primitive nor the null type, the number
    of arguments is the declared one, and every argument is valid and
    assignable to its parameter (null only to a non-primitive one). *)
Theorem constructor_call_valid_iff h instantiated_type args :
  check_types h (ConstructorCall instantiated_type args) = Returns ()
  <-> well_typed_call h (ConstructorCall instantiated_type args).
Proof.
  split.
  - intros Hok.
    destruct (constructor_call_inversion h _ _ Hok)
      as (Hprim & Hnull & Hlen & passedArgTypes & Hpassed & Hvalid & Htypes).
    split; [exact Hprim |]. split; [exact Hnull |]. split; [exact Hlen |].
    split; [eapply passed_has_type; eassumption | exact Hvalid].
  - intros (Hprim & Hnull & Hlen & Htypes & Hvalid).
    apply constructor_call_succeeds; assumption.
Qed.

(** X5: in a constructor call of an instantiable type with the declared
    number of arguments, all of which have a static type: a position is
    accepted exactly when the argument type equals the parameter type, or
    the parameter type is a direct supertype of it, or the argument type is
    null and the parameter type is not a primitive; a rejected position
    whose argument and predecessors are valid makes the call fail with the
    mismatch error naming the expected and passed types; an invalid
    argument whose predecessors are valid and accepted makes the call fail
    with that argument's own error. *)
Theorem constructor_argument_rule h instantiated_type args passedArgTypes :
  instantiated_type ∉ primitives ->
  instantiated_type <> Tnull ->
  length args = length (constructor_argument_types (constructor h instantiated_type)) ->
  mapM (static_type h) args = Returns passedArgTypes ->
  (forall passed expected,
     constructor_arg_accepted h passed expected = true
     <-> passed = expected \/ expected ∈ direct_supertypes h passed
         \/ (passed = Tnull /\ expected ∉ primitives))
  /\
  (forall i passed expected,
     passedArgTypes !! i = Some passed ->
     constructor_argument_types (constructor h instantiated_type) !! i = Some expected ->
     ~ (passed = expected \/ expected ∈ direct_supertypes h passed
        \/ (passed = Tnull /\ expected ∉ primitives)) ->
     Forall (valid h) (take (S i) args) ->
     check_types h (ConstructorCall instantiated_type args)
     = Raises (JavaTypeError
                 (expects_arguments_msg (constructor_callee instantiated_type)
                    (constructor_argument_types (constructor h instantiated_type))
                    passedArgTypes)))
  /\
  (forall j e x,
     args !! j = Some e ->
     check_types h e = Raises x ->
     Forall (valid h) (take j args) ->
     Forall2 (constructor_assignable h) (take j passedArgTypes)
       (take j (constructor_argument_types (constructor h instantiated_type))) ->
     check_types h (ConstructorCall instantiated_type args) = Raises x).
Proof.
  intros Hprim Hnull Hlen Hpassed.
  split; [intros passed expected; apply constructor_arg_accepted_spec |].
  split.
  - intros i passed expected Hi Hexp Hrej Hvalid.
    eapply constructor_call_rejects; eassumption.
  - intros j e x Hj He Hvalid Htypes.
    rewrite (check_types_ConstructorCall h _ _ _ Hprim Hnull Hlen Hpassed).
    apply (check_args_propagates _ _ _ _ _ j).
    + rewrite length_map. apply (mapM_outcome_length _ _ _ Hpassed).
    + rewrite length_map. symmetry. exact Hlen.
    + change (map (check_types h) args) with (check_types h <$> args).
      rewrite list_lookup_fmap, Hj. simpl. rewrite He. reflexivity.
    + rewrite <- (fmap_take (check_types h)). apply Forall_valid_checks, Hvalid.
    + eapply Forall2_impl; [exact Htypes |].
      intros passed expected. apply constructor_arg_accepted_spec.
Qed.

(** [new Point(1.0, new String())]: the second argument lacks its own
    constructor argument, and that error is the one reported. *)
Lemma constructor_argument_rule_witness :
  check_types Example.hierarchy
    (ConstructorCall Example.Point
       [Literal "1.0" Tdouble; ConstructorCall Example.String []])
  = Raises (JavaTypeError "Wrong number of arguments for String constructor: expected 1, got 0").
Proof.
  assert (Example.Point ∉ primitives) as Hprim by not_in_list.
  assert (Example.Point <> Tnull) as Hnull by discriminate.
  destruct (constructor_argument_rule Example.hierarchy Example.Point
              [Literal "1.0" Tdouble; ConstructorCall Example.String []]
              [Tdouble; Example.String] Hprim Hnull eq_refl eq_refl) as (_ & _ & Hpropagates).
  apply (Hpropagates 1 (ConstructorCall Example.String [])).
  - reflexivity.
  - reflexivity.
  - constructor; [reflexivity | constructor].
  - constructor; [left; reflexivity | constructor].
Defined.

(** X6: a method call whose receiver is itself a call of a method that the
    inner receiver's type does not have: validating the inner call alone
    reports a type error, but the inner call has no static type, so its
    static type and the validation of any call on it raise
    [AttributeError]. *)
Theorem call_on_unresolved_call_crashes h inner_receiver inner_name inner_args T :
  static_type h inner_receiver = Returns T ->
  method_named h T inner_name = None ->
  (check_types h (MethodCall inner_receiver inner_name inner_args)
   = Raises (JavaTypeError (if bool_decide (T ∈ primitives)
                            then no_methods_msg T
                            else no_method_named_msg T inner_name)))
  /\ static_type h (MethodCall inner_receiver inner_name inner_args) = Raises AttributeError
  /\ forall method_name args,
       check_types h
         (MethodCall (MethodCall inner_receiver inner_name inner_args) method_name args)
       = Raises AttributeError
       /\ static_type h
            (MethodCall (MethodCall inner_receiver inner_name inner_args) method_name args)
          = Raises AttributeError.
Proof.
  intros Hrecv Hnone.
  assert (static_type h (MethodCall inner_receiver inner_name inner_args)
          = Raises AttributeError) as Hinner.
  { simpl. rewrite Hrecv. simpl. rewrite Hnone. reflexivity. }
  split; [| split; [exact Hinner |]].
  - simpl. rewrite Hrecv. simpl. case_bool_decide; [reflexivity |].
    rewrite Hnone. reflexivity.
  - intros method_name args. split.
    + apply method_call_receiver_raises, Hinner.
    + apply method_call_static_type_raises, Hinner.
Qed.

(** [s.trim().length()], where [String] declares no [trim]. *)
Lemma call_on_unresolved_call_crashes_witness :
  check_types Example.hierarchy (MethodCall (Variable_ "s" Example.String) "trim" [])
  = Raises (JavaTypeError "String has no method named trim")
  /\ static_type Example.hierarchy (MethodCall (Variable_ "s" Example.String) "trim" [])
     = Raises AttributeError
  /\ forall method_name args,
       check_types Example.hierarchy
         (MethodCall (MethodCall (Variable_ "s" Example.String) "trim" []) method_name args)
       = Raises AttributeError
       /\ static_type Example.hierarchy
            (MethodCall (MethodCall (Variable_ "s" Example.String) "trim" []) method_name args)
          = Raises AttributeError.
Proof.
  apply (call_on_unresolved_call_crashes Example.hierarchy
           (Variable_ "s" Example.String) "trim" [] Example.String).
  - reflexivity.
  - reflexivity.
Defined.

(** X7: in both call forms the static types of all arguments are computed
    before any argument is validated or compared: once the receiver (or the
    instantiated type), the method and the arity are accepted, an argument
    without a static type makes [check_types] raise [AttributeError],
    whatever the other arguments are. *)
Theorem argument_without_static_type_crashes h e x :
  static_type h e = Raises x ->
  (forall receiver method_name args objType method,
     static_type h receiver = Returns objType ->
     objType ∉ primitives ->
     method_named h objType method_name = Some method ->
     length args = length (argument_types method) ->
     e ∈ args ->
     check_types h (MethodCall receiver method_name args) = Raises AttributeError)
  /\
  (forall instantiated_type args,
     instantiated_type ∉ primitives ->
     instantiated_type <> Tnull ->
     length args = length (constructor_argument_types (constructor h instantiated_type)) ->
     e ∈ args ->
     check_types h (ConstructorCall instantiated_type args) = Raises AttributeError).
Proof.
  intros He. split.
  - intros receiver method_name args objType method Hrecv Hprim Hmeth Hlen Hin. simpl.
    rewrite Hrecv. simpl. rewrite (not_primitive _ Hprim), Hmeth.
    rewrite bool_decide_eq_true_2 by exact Hlen.
    rewrite (mapM_static_type_crashes h args e x Hin He). reflexivity.
  - intros instantiated_type args Hprim Hnull Hlen Hin. simpl.
    rewrite (not_primitive _ Hprim).
    rewrite bool_decide_eq_false_2 by exact Hnull.
    rewrite bool_decide_eq_true_2 by exact Hlen.
    rewrite (mapM_static_type_crashes h args e x Hin He). reflexivity.
Qed.

(** [p.setLabel(new int(), s.trim())]: the first argument is invalid, yet the
    missing static type of the second one is what surfaces. *)
Lemma argument_without_static_type_crashes_witness :
  check_types Example.hierarchy (ConstructorCall Tint [])
  = Raises (JavaTypeError "Type int is not instantiable")
  /\ check_types Example.hierarchy
       (MethodCall (Variable_ "p" Example.Point) "setLabel"
          [ConstructorCall Tint []; MethodCall (Variable_ "s" Example.String) "trim" []])
     = Raises AttributeError.
Proof.
  split; [reflexivity |].
  apply (proj1 (argument_without_static_type_crashes Example.hierarchy
                  (MethodCall (Variable_ "s" Example.String) "trim" []) AttributeError
                  eq_refl)
           (Variable_ "p" Example.Point) "setLabel"
           [ConstructorCall Tint []; MethodCall (Variable_ "s" Example.String) "trim" []]
           Example.Point Example.set_label).
  - reflexivity.
  - not_in_list.
  - reflexivity.
  - reflexivity.
  - apply list_elem_of_further, list_elem_of_here.
Defined.

(** X8: the checker reads nothing of a variable but its declared type and
    nothing of a literal but its type: dropping all variable names and
    literal values, and writing the null literal as a literal of the null
    type, changes neither the static type nor the outcome of validation. *)
Theorem checker_reads_only_leaf_types h e :
  static_type h (forget e) = static_type h e
  /\ check_types h (forget e) = check_types h e.
Proof.
  split; [apply static_type_forget |].
  induction e as [n t | v t | | receiver n args _ IH | t args IH] using Expression_nested_ind;
    try reflexivity.
  - change (check_types h (forget (MethodCall receiver n args)))
      with (check_types h (MethodCall (forget receiver) n (map forget args))).
    simpl. rewrite static_type_forget, length_map, mapM_static_type_forget.
    rewrite (map_check_types_forget h args IH). reflexivity.
  - change (check_types h (forget (ConstructorCall t args)))
      with (check_types h (ConstructorCall t (map forget args))).
    simpl. rewrite length_map, mapM_static_type_forget.
    rewrite (map_check_types_forget h args IH). reflexivity.
Qed.

(** X9: [check_types] returns, raises a [JavaTypeError] or raises
    [AttributeError]; the subscripts of its argument loops are always in
    range, so it never raises [IndexError]. *)
Theorem check_types_outcomes h e :
  check_types h e = Returns ()
  \/ check_types h e = Raises AttributeError
  \/ exists msg, check_types h e = Raises (JavaTypeError msg).
Proof.
  destruct (check_types h e) as [[] | x] eqn:Hcheck; [left; reflexivity | right].
  destruct (check_types_raises_shape h e x Hcheck) as [-> | [c ->]];
    [left; reflexivity | right].
  destruct c; eexists; reflexivity.
Qed.

(** ** The [names] helper *)

Lemma string_app_empty_r (s : string) : s +:+ "" = s.
Proof.
  induction s as [| a s IH]; [reflexivity |].
  change (String a s +:+ "") with (String a (s +:+ "")). rewrite IH. reflexivity.
Qed.

Lemma string_app_assoc (s1 s2 s3 : string) : (s1 +:+ s2) +:+ s3 = s1 +:+ (s2 +:+ s3).
Proof.
  induction s1 as [| a s1 IH]; [reflexivity |].
  change ((String a s1 +:+ s2) +:+ s3) with (String a ((s1 +:+ s2) +:+ s3)).
  change (String a s1 +:+ (s2 +:+ s3)) with (String a (s1 +:+ (s2 +:+ s3))).
  rewrite IH. reflexivity.
Qed.

Lemma concat_empty_cons (x : string) (xs : list string) :
  String.concat "" (x :: xs) = x +:+ String.concat "" xs.
Proof.
  destruct xs as [| y xs]; [symmetry; apply string_app_empty_r | reflexivity].
Qed.

Lemma concat_comma_cons (x : string) (l : list Type_) :
  String.concat ", " (x :: map name l)
  = x +:+ String.concat "" (map (fun u => ", " +:+ name u) l).
Proof.
  revert x. induction l as [| u l IH]; intros x.
  - symmetry. apply string_app_empty_r.
  - change (String.concat ", " (x :: map name (u :: l)))
      with (x +:+ ", " +:+ String.concat ", " (name u :: map name l)).
    rewrite IH.
    change (map (fun u0 => ", " +:+ name u0) (u :: l))
      with ((", " +:+ name u) :: map (fun u0 => ", " +:+ name u0) l).
    rewrite concat_empty_cons, string_app_assoc. reflexivity.
Qed.

(** X10: [names] writes the names in order between parentheses, each name
    after the first preceded by a comma and a space: there is no separator
    before the first name nor after the last, and the empty list gives
    "()". *)
Theorem names_format :
  names [] = "()"
  /\ forall t l,
       names (t :: l)
       = "(" +:+ name t +:+ String.concat "" (map (fun u => ", " +:+ name u) l) +:+ ")".
Proof.
  split; [reflexivity |]. intros t l. unfold names.
  change (map name (t :: l)) with (name t :: map name l).
  rewrite concat_comma_cons, string_app_assoc. reflexivity.
Qed.
